(** * A shallow embedding of the pi_control_hub_driver_api package

    The package [pi_control_hub_driver_api] (its [__init__.py] and the
    modules [device_driver.py], [device_driver_descriptor.py],
    [exceptions.py], [device_info.py], and [berry_control_hub_driver_api/
    device_command.py]) defines the abstract contract between the PiControl
    hub and its device drivers.  Abstract methods are modelled as fields of a
    record supplied by the concrete driver; the concrete members of the base
    classes are modelled as Rocq functions over those records.  Python
    exceptions are modelled by a small exception monad. *)

From Stdlib Require Import String Ascii ZArith List Bool Decimal DecimalString DecimalZ.
Import ListNotations.
Open Scope string_scope.
Open Scope Z_scope.
Set Warnings "-register-all".

(** ** Python values used by the package *)

(** [str(n)] for a Python [int]: the decimal notation, with a leading
    minus sign for negative numbers. *)
Fixpoint uint_to_string (d : Decimal.uint) : string :=
  match d with
  | Decimal.Nil => ""
  | Decimal.D0 d => String "0" (uint_to_string d)
  | Decimal.D1 d => String "1" (uint_to_string d)
  | Decimal.D2 d => String "2" (uint_to_string d)
  | Decimal.D3 d => String "3" (uint_to_string d)
  | Decimal.D4 d => String "4" (uint_to_string d)
  | Decimal.D5 d => String "5" (uint_to_string d)
  | Decimal.D6 d => String "6" (uint_to_string d)
  | Decimal.D7 d => String "7" (uint_to_string d)
  | Decimal.D8 d => String "8" (uint_to_string d)
  | Decimal.D9 d => String "9" (uint_to_string d)
  end.

Definition py_str_int (n : Z) : string :=
  match Z.to_int n with
  | Decimal.Pos d => uint_to_string d
  | Decimal.Neg d => "-" ++ uint_to_string d
  end.

(** ** Exceptions *)

(** The exception classes that the package raises, together with the
    built-in ones that its code can raise. *)
Inductive exc_class :=
| DeviceDriverException_cls
| DeviceNotFoundException_cls
| CommandNotFoundException_cls
| DeviceCommandException_cls
| TypeError_cls
| AttributeError_cls
| IndexError_cls.

(** An exception object.  For [DeviceDriverException] and its subclasses,
    [exc_message] is the attribute [_message] and [exc_cause] the attribute
    [_cause]; for built-in exceptions [exc_message] is the message argument. *)
Inductive exn :=
| mk_exn (exc_cls : exc_class) (exc_message : string) (exc_cause : option exn).

Definition exn_class (e : exn) : exc_class :=
  match e with mk_exn c _ _ => c end.
Definition exn_message (e : exn) : string :=
  match e with mk_exn _ m _ => m end.
Definition exn_cause (e : exn) : option exn :=
  match e with mk_exn _ _ c => c end.

(** [DeviceDriverException.__init__(self, message, cause=None)] on an
    instance of class [cls] (the class itself or a subclass whose
    [__init__] delegates to it): stores [_message] and [_cause]. *)
Definition DeviceDriverException_init (cls : exc_class) (message : string)
  (cause : option exn) : exn :=
  mk_exn cls message cause.

(** [DeviceDriverException(message, cause)] *)
Definition DeviceDriverException (message : string) (cause : option exn) : exn :=
  DeviceDriverException_init DeviceDriverException_cls message cause.

(** [DeviceDriverException.__str__]: [return self._message]; a built-in
    exception prints its message argument. *)
Definition py_str_exn (e : exn) : string := exn_message e.

(** [isinstance(e, DeviceDriverException)] *)
Definition is_DeviceDriverException (e : exn) : bool :=
  match exn_class e with
  | DeviceDriverException_cls | DeviceNotFoundException_cls
  | CommandNotFoundException_cls | DeviceCommandException_cls => true
  | TypeError_cls | AttributeError_cls | IndexError_cls => false
  end.

(** Computations that return a value or raise an exception. *)
Inductive result (A : Type) :=
| Ok (a : A)
| Raise (e : exn).
Arguments Ok {A} a.
Arguments Raise {A} e.

Definition bind {A B} (m : result A) (k : A -> result B) : result B :=
  match m with
  | Ok a => k a
  | Raise e => Raise e
  end.

Notation "x <- m ;; k" := (bind m (fun x => k))
  (at level 61, m at next level, right associativity).

(** A built-in exception raised by the interpreter. *)
Definition builtin_exn (c : exc_class) (message : string) : exn :=
  mk_exn c message None.

(** [list.count(value)]: the method takes exactly one argument and counts
    the elements equal to it; called with any other number of arguments it
    raises [TypeError]. *)
Definition list_count {A} (eqb : A -> A -> bool) (self : list A) (args : list A)
  : result Z :=
  match args with
  | [x] => Ok (Z.of_nat (length (filter (eqb x) self)))
  | _ => Raise (builtin_exn TypeError_cls
           ("list.count() takes exactly one argument ("
            ++ py_str_int (Z.of_nat (length args)) ++ " given)"))
  end.

(** [lst[0]] *)
Definition list_get0 {A} (lst : list A) : result A :=
  match lst with
  | x :: _ => Ok x
  | [] => Raise (builtin_exn IndexError_cls "list index out of range")
  end.

(** ** DeviceCommand (device_command.py and __init__.py) *)

(** The attributes [_id], [_title] and [_icon] set by [__init__]; the
    abstract [execute] belongs to subclasses and is not stored here. *)
Record DeviceCommand := mk_DeviceCommand {
  _id : Z;
  _title : string;
  _icon : list Byte.byte
}.

(** [DeviceCommand.__init__(self, cmd_id, title, icon)] *)
Definition DeviceCommand_init (cmd_id : Z) (title : string) (icon : list Byte.byte)
  : DeviceCommand :=
  {| _id := cmd_id; _title := title; _icon := icon |}.

(** The read-only properties [id], [title] and [icon]. *)
Definition cmd_id_prop (self : DeviceCommand) : Z := self.(_id).
Definition cmd_title (self : DeviceCommand) : string := self.(_title).
Definition cmd_icon (self : DeviceCommand) : list Byte.byte := self.(_icon).

(** ** DeviceInfo (device_info.py and __init__.py) *)

Record DeviceInfo := mk_DeviceInfo {
  _name : string;
  _device_info_id : string   (* the attribute [_id] *)
}.

Definition DeviceInfo_init (name device_id : string) : DeviceInfo :=
  {| _name := name; _device_info_id := device_id |}.

Definition info_name (self : DeviceInfo) : string := self.(_name).
Definition info_device_id (self : DeviceInfo) : string := self.(_device_info_id).

(** ** DeviceDriver (device_driver.py and __init__.py) *)

(** A driver object: the attribute [_device_info] set by [__init__] and the
    abstract members a concrete driver supplies. *)
Record DeviceDriver := mk_DeviceDriver {
  _device_info : DeviceInfo;
  get_commands : result (list DeviceCommand);
  remote_layout_size : Z * Z;
  remote_layout : list (list Z);
  execute : DeviceCommand -> result unit;
  is_device_ready : bool
}.

(** [DeviceDriver.name] and [DeviceDriver.device_id]: delegated to the
    stored [DeviceInfo]. *)
Definition driver_name (self : DeviceDriver) : string := info_name self.(_device_info).
Definition driver_device_id (self : DeviceDriver) : string :=
  info_device_id self.(_device_info).

(** Python [==] on two [DeviceCommand] objects (no [__eq__] is defined, so
    this is identity; on the immutable record it is structural equality). *)
Definition cmd_eqb (a b : DeviceCommand) : bool :=
  Z.eqb a.(_id) b.(_id) && String.eqb a.(_title) b.(_title)
  && (if list_eq_dec Byte.byte_eq_dec a.(_icon) b.(_icon) then true else false).

(** A Python value passed where the module [exceptions.py] expects a
    driver object. *)
Inductive py_obj :=
| PyStr (s : string)
| PyDriver (d : DeviceDriver).

(** [getattr(obj, "name")] and [getattr(obj, "device_id")] *)
Definition getattr_name (o : py_obj) : result string :=
  match o with
  | PyDriver d => Ok (driver_name d)
  | PyStr _ => Raise (builtin_exn AttributeError_cls "'str' object has no attribute 'name'")
  end.
Definition getattr_device_id (o : py_obj) : result string :=
  match o with
  | PyDriver d => Ok (driver_device_id d)
  | PyStr _ => Raise (builtin_exn AttributeError_cls "'str' object has no attribute 'device_id'")
  end.

(** [CommandNotFoundException(device_driver_name, command_id)] of
    [__init__.py]. *)
Definition CommandNotFoundException_pkg (device_driver_name : string) (command_id : Z)
  : exn :=
  DeviceDriverException_init CommandNotFoundException_cls
    ("The device '" ++ device_driver_name ++ "' has no command with id '"
     ++ py_str_int command_id ++ "'") None.

(** [DeviceNotFoundException(device_id)] of [__init__.py]. *)
Definition DeviceNotFoundException_pkg (device_id : string) : exn :=
  DeviceDriverException_init DeviceNotFoundException_cls
    ("Device with ID '" ++ device_id ++ "' not found.") None.

(** [CommandNotFoundException(device_driver, command_id)] of
    [exceptions.py]: evaluating the f-string may itself raise. *)
Definition CommandNotFoundException_mod (device_driver : py_obj) (command_id : Z)
  : result exn :=
  n <- getattr_name device_driver ;;
  i <- getattr_device_id device_driver ;;
  Ok (DeviceDriverException_init CommandNotFoundException_cls
        ("The device '" ++ n ++ "' (id = " ++ i ++ ") has no command with id '"
         ++ py_str_int command_id ++ "'") None).

(** [raise E]: raising the result of a constructor call. *)
Definition raise_from {A} (e : result exn) : result A :=
  match e with
  | Ok e => Raise e
  | Raise e' => Raise e'
  end.

(** The body of [DeviceDriver.get_command], common to both files; the two
    files differ only in the [CommandNotFoundException] they construct. *)
Definition get_command_with (not_found : DeviceDriver -> Z -> result exn)
  (self : DeviceDriver) (cmd_id : Z) : result DeviceCommand :=
  cmds <- get_commands self ;;
  let result := filter (fun c => Z.eqb (cmd_id_prop c) cmd_id) cmds in
  n <- list_count cmd_eqb result [] ;;
  if 0 <? n then list_get0 result
  else raise_from (not_found self cmd_id).

(** [DeviceDriver.get_command] of [__init__.py]. *)
Definition get_command (self : DeviceDriver) (cmd_id : Z) : result DeviceCommand :=
  get_command_with (fun d i => Ok (CommandNotFoundException_pkg (driver_name d) i))
    self cmd_id.

(** [DeviceDriver.get_command] of [device_driver.py]: it passes [self.name],
    a string, to the constructor of [exceptions.py]. *)
Definition get_command_mod (self : DeviceDriver) (cmd_id : Z) : result DeviceCommand :=
  get_command_with (fun d i => CommandNotFoundException_mod (PyStr (driver_name d)) i)
    self cmd_id.

(** [DeviceDriver.__init__(self, device_info)]: stores [_device_info]; the
    remaining members are those of the concrete subclass. *)
Definition DeviceDriver_init (device_info : DeviceInfo)
  (gc : result (list DeviceCommand)) (size : Z * Z) (layout : list (list Z))
  (ex : DeviceCommand -> result unit) (ready : bool) : DeviceDriver :=
  {| _device_info := device_info; get_commands := gc; remote_layout_size := size;
     remote_layout := layout; execute := ex; is_device_ready := ready |}.

(** The calls a client can make on a driver object, and what they return. *)
Inductive driver_op :=
| DOpName
| DOpDeviceId
| DOpGetCommands
| DOpGetCommand (cmd_id : Z)
| DOpRemoteLayoutSize
| DOpRemoteLayout
| DOpExecute (command : DeviceCommand)
| DOpIsDeviceReady.

Inductive driver_out :=
| DOutStr (s : string)
| DOutCommands (l : list DeviceCommand)
| DOutCommand (c : DeviceCommand)
| DOutSize (wh : Z * Z)
| DOutLayout (l : list (list Z))
| DOutNone
| DOutBool (b : bool).

Definition fmap {A B} (f : A -> B) (m : result A) : result B :=
  a <- m ;; Ok (f a).

(** One call on a driver object: no member of [DeviceDriver] assigns an
    attribute, so the object is returned unchanged. *)
Definition driver_step (self : DeviceDriver) (op : driver_op)
  : DeviceDriver * result driver_out :=
  match op with
  | DOpName => (self, Ok (DOutStr (driver_name self)))
  | DOpDeviceId => (self, Ok (DOutStr (driver_device_id self)))
  | DOpGetCommands => (self, fmap DOutCommands (get_commands self))
  | DOpGetCommand i => (self, fmap DOutCommand (get_command self i))
  | DOpRemoteLayoutSize => (self, Ok (DOutSize (remote_layout_size self)))
  | DOpRemoteLayout => (self, Ok (DOutLayout (remote_layout self)))
  | DOpExecute c => (self, fmap (fun _ => DOutNone) (execute self c))
  | DOpIsDeviceReady => (self, Ok (DOutBool (is_device_ready self)))
  end.

Fixpoint driver_run (self : DeviceDriver) (ops : list driver_op) : DeviceDriver :=
  match ops with
  | [] => self
  | op :: ops' => driver_run (fst (driver_step self op)) ops'
  end.

(** The calls a client can make on a command object; [execute] is the
    subclass's and does not touch [_id], [_title] or [_icon]. *)
Inductive command_op :=
| COpId
| COpTitle
| COpIcon
| COpExecute.

Inductive command_out :=
| COutInt (n : Z)
| COutStr (s : string)
| COutBytes (b : list Byte.byte)
| COutNone.

Definition command_step (self : DeviceCommand) (execute_impl : result unit)
  (op : command_op) : DeviceCommand * result command_out :=
  match op with
  | COpId => (self, Ok (COutInt (cmd_id_prop self)))
  | COpTitle => (self, Ok (COutStr (cmd_title self)))
  | COpIcon => (self, Ok (COutBytes (cmd_icon self)))
  | COpExecute => (self, fmap (fun _ => COutNone) execute_impl)
  end.

Fixpoint command_run (self : DeviceCommand) (execute_impl : result unit)
  (ops : list command_op) : DeviceCommand :=
  match ops with
  | [] => self
  | op :: ops' => command_run (fst (command_step self execute_impl op)) execute_impl ops'
  end.

(** ** Exceptions of [__init__.py] and [exceptions.py] *)

(** Python truthiness of [device_driver_name: str = None]. *)
Definition py_truthy_str (o : option string) : bool :=
  match o with
  | None => false
  | Some s => negb (String.eqb s "")
  end.

(** [DeviceCommandException(command, device_driver_name=None)] of
    [__init__.py]. *)
Definition DeviceCommandException_pkg (command : DeviceCommand)
  (device_driver_name : option string) : exn :=
  if py_truthy_str device_driver_name then
    DeviceDriverException_init DeviceCommandException_cls
      ("Error while executing the command '" ++ cmd_title command ++ "' (id = "
       ++ py_str_int (cmd_id_prop command) ++ ") for device '"
       ++ match device_driver_name with Some s => s | None => "None" end ++ "'.")
      None
  else
    DeviceDriverException_init DeviceCommandException_cls
      ("Error while executing the command '" ++ cmd_title command ++ "' (id = "
       ++ py_str_int (cmd_id_prop command) ++ ").")
      None.

(** [DeviceCommandException(command, device_driver=None)] of
    [exceptions.py].  [DeviceDriver] defines neither [__bool__] nor
    [__len__], so every driver object is truthy and only [None] is falsy. *)
Definition DeviceCommandException_mod (command : DeviceCommand)
  (device_driver : option DeviceDriver) : exn :=
  match device_driver with
  | Some d =>
    DeviceDriverException_init DeviceCommandException_cls
      ("Error while executing the command '" ++ cmd_title command ++ "' (id = "
       ++ py_str_int (cmd_id_prop command) ++ ") for device '" ++ driver_name d
       ++ "' (id = " ++ driver_device_id d ++ ").")
      None
  | None =>
    DeviceDriverException_init DeviceCommandException_cls
      ("Error while executing the command '" ++ cmd_title command ++ "' (id = "
       ++ py_str_int (cmd_id_prop command) ++ ").")
      None
  end.

(** How an optional parameter of a constructor is given at a call site. *)
Inductive py_param (A : Type) :=
| NotPassed
| Positional (v : A)
| Keyword (v : A).
Arguments NotPassed {A}.
Arguments Positional {A} v.
Arguments Keyword {A} v.

(** The value the parameter takes in the body, with its default [None]. *)
Definition param_value {A} (p : py_param (option A)) : option A :=
  match p with
  | NotPassed => None
  | Positional v | Keyword v => v
  end.

(** A positional argument of an exception constructor call. *)
Inductive py_arg :=
| ArgCommand (c : DeviceCommand)
| ArgNone
| ArgStr (s : string)
| ArgDriver (d : DeviceDriver).

Definition arg_of_opt_str (o : option string) : py_arg :=
  match o with Some s => ArgStr s | None => ArgNone end.
Definition arg_of_opt_driver (o : option DeviceDriver) : py_arg :=
  match o with Some d => ArgDriver d | None => ArgNone end.

(** The positional arguments [command] and, when given positionally, the
    second parameter. *)
Definition positional_args {A} (command : DeviceCommand) (to_arg : option A -> py_arg)
  (p : py_param (option A)) : list py_arg :=
  ArgCommand command :: match p with Positional v => [to_arg v] | _ => [] end.

(** An exception object together with its [args] attribute:
    [BaseException.__new__] stores the positional arguments of the call in
    [args], and since [DeviceDriverException.__init__] does not call
    [BaseException.__init__], [args] keeps them. *)
Record PyException := mk_PyException {
  exc_args : list py_arg;
  exc_obj : exn
}.

(** The call [DeviceCommandException(command, ...)] of [__init__.py]. *)
Definition DeviceCommandException_pkg_call (command : DeviceCommand)
  (device_driver_name : py_param (option string)) : PyException :=
  {| exc_args := positional_args command arg_of_opt_str device_driver_name;
     exc_obj := DeviceCommandException_pkg command (param_value device_driver_name) |}.

(** The call [DeviceCommandException(command, ...)] of [exceptions.py]. *)
Definition DeviceCommandException_mod_call (command : DeviceCommand)
  (device_driver : py_param (option DeviceDriver)) : PyException :=
  {| exc_args := positional_args command arg_of_opt_driver device_driver;
     exc_obj := DeviceCommandException_mod command (param_value device_driver) |}.

(** [hay.startswith(needle)] *)
Fixpoint str_startswith (needle hay : string) : bool :=
  match needle, hay with
  | EmptyString, _ => true
  | String _ _, EmptyString => false
  | String a n, String b h => Ascii.eqb a b && str_startswith n h
  end.

(** [needle in hay] for Python strings. *)
Fixpoint str_contains (needle hay : string) : bool :=
  str_startswith needle hay ||
  match hay with
  | EmptyString => false
  | String _ rest => str_contains needle rest
  end.

(** ** DeviceDriverDescriptor (device_driver_descriptor.py and __init__.py) *)

Inductive AuthenticationMethod :=
| NONE
| PIN
| PASSWORD
| USER_AND_PASSWORD.

(** Enum members compare by identity. *)
Definition AuthenticationMethod_eqb (a b : AuthenticationMethod) : bool :=
  match a, b with
  | NONE, NONE | PIN, PIN | PASSWORD, PASSWORD
  | USER_AND_PASSWORD, USER_AND_PASSWORD => true
  | _, _ => false
  end.

Section Descriptor.

(** The private state a concrete driver keeps in its descriptor object
    (pending pairing requests, known devices, ...). *)
Variable S : Type.

(** A descriptor object: the attributes set by [__init__] and the abstract
    members of the concrete subclass, as functions of its private state. *)
Record DeviceDriverDescriptor := mk_DeviceDriverDescriptor {
  _driver_id : Z;   (* a [UUID], as its 128-bit integer *)
  _display_name : string;
  _description : string;
  get_devices : S -> S * result (list DeviceInfo);
  authentication_method : S -> result AuthenticationMethod;
  requires_pairing : S -> result bool;
  start_pairing : S -> DeviceInfo -> string -> S * result (string * bool);
  finalize_pairing : S -> string -> string -> bool -> S * result bool;
  create_device_instance : S -> string -> S * result DeviceDriver
}.

(** [DeviceDriverDescriptor.requires_authentication]:
    [return self.authentication_method != AuthenticationMethod.NONE]. *)
Definition requires_authentication (self : DeviceDriverDescriptor) (st : S)
  : result bool :=
  m <- authentication_method self st ;;
  Ok (negb (AuthenticationMethod_eqb m NONE)).

(** The interpreter state: the class attribute
    [DeviceDriverDescriptor._config_path] (initially [None]) and the
    descriptor objects the hub holds, each with its private state. *)
Record World := mk_World {
  _config_path : option string;
  descriptors : list (DeviceDriverDescriptor * S)
}.

Definition initial_world : World :=
  {| _config_path := None; descriptors := [] |}.

(** The calls of the hub: on the class, or on its [k]-th descriptor. *)
Inductive hub_op :=
| HSetConfigPath (config_path : string)
| HGetConfigPath
| HInstanceGetConfigPath (k : nat)
| HNewDescriptor (d : DeviceDriverDescriptor) (st : S)
| HGetDevices (k : nat)
| HRequiresAuthentication (k : nat)
| HStartPairing (k : nat) (device_info : DeviceInfo) (remote_name : string)
| HFinalizePairing (k : nat) (pairing_request credentials : string)
    (device_provides_pin : bool)
| HCreateDeviceInstance (k : nat) (device_id : string).

Inductive hub_out :=
| HOutNone
| HOutPath (p : option string)
| HOutDevices (l : list DeviceInfo)
| HOutBool (b : bool)
| HOutPairing (r : string * bool)
| HOutDriver (d : DeviceDriver).

(** [DeviceDriverDescriptor.set_config_path] (a static method):
    [DeviceDriverDescriptor._config_path = config_path]. *)
Definition set_config_path (w : World) (config_path : string) : World :=
  {| _config_path := Some config_path; descriptors := descriptors w |}.

(** [DeviceDriverDescriptor.get_config_path] (a static method):
    [return DeviceDriverDescriptor._config_path]. *)
Definition get_config_path (w : World) : option string := _config_path w.

(** [descriptors[k]] *)
Definition lookup_descriptor (w : World) (k : nat)
  : result (DeviceDriverDescriptor * S) :=
  match nth_error (descriptors w) k with
  | Some ds => Ok ds
  | None => Raise (builtin_exn IndexError_cls "list index out of range")
  end.

(** Replace the private state of the [k]-th descriptor. *)
Definition update_state (w : World) (k : nat) (st : S) : World :=
  {| _config_path := _config_path w;
     descriptors := map (fun '(i, ds) => if Nat.eqb i k then (fst ds, st) else ds)
                      (combine (seq 0 (length (descriptors w))) (descriptors w)) |}.

(** Call a method of the [k]-th descriptor that may update its state. *)
Definition call_method {A} (w : World) (k : nat)
  (m : DeviceDriverDescriptor -> S -> S * result A) (f : A -> hub_out)
  : World * result hub_out :=
  match lookup_descriptor w k with
  | Raise e => (w, Raise e)
  | Ok (d, st) => let '(st', r) := m d st in (update_state w k st', fmap f r)
  end.

(** One call of the hub. *)
Definition hub_step (w : World) (op : hub_op) : World * result hub_out :=
  match op with
  | HSetConfigPath p => (set_config_path w p, Ok HOutNone)
  | HGetConfigPath => (w, Ok (HOutPath (get_config_path w)))
  | HInstanceGetConfigPath k =>
      (w, fmap (fun _ => HOutPath (get_config_path w)) (lookup_descriptor w k))
  | HNewDescriptor d st =>
      ({| _config_path := _config_path w; descriptors := descriptors w ++ [(d, st)] |},
       Ok HOutNone)
  | HGetDevices k => call_method w k get_devices HOutDevices
  | HRequiresAuthentication k =>
      call_method w k (fun d st => (st, requires_authentication d st)) HOutBool
  | HStartPairing k di name =>
      call_method w k (fun d st => start_pairing d st di name) HOutPairing
  | HFinalizePairing k tok cred pin =>
      call_method w k (fun d st => finalize_pairing d st tok cred pin) HOutBool
  | HCreateDeviceInstance k id =>
      call_method w k (fun d st => create_device_instance d st id) HOutDriver
  end.

(** Run a sequence of calls, collecting their outcomes. *)
Fixpoint hub_run (w : World) (ops : list hub_op) : World * list (result hub_out) :=
  match ops with
  | [] => (w, [])
  | op :: ops' =>
      let '(w1, r) := hub_step w op in
      let '(w2, rs) := hub_run w1 ops' in
      (w2, r :: rs)
  end.

Definition is_set_config_path (op : hub_op) : bool :=
  match op with HSetConfigPath _ => true | _ => false end.

End Descriptor.

Arguments mk_DeviceDriverDescriptor {S}.
Arguments requires_authentication {S}.
Arguments authentication_method {S}.
Arguments initial_world {S}.
Arguments hub_step {S}.
Arguments hub_run {S}.
Arguments get_config_path {S}.
Arguments set_config_path {S}.
Arguments descriptors {S}.
Arguments lookup_descriptor {S}.

(** ** Concrete objects used to exercise the contract *)

(** A remote command and a device. *)
Definition power_cmd : DeviceCommand := DeviceCommand_init 1 "Power" [].
Definition volume_cmd : DeviceCommand := DeviceCommand_init 2 "Volume" [Byte.x01].
Definition tv_info : DeviceInfo := DeviceInfo_init "TV" "tv-1".

(** A driver for [tv_info] that supports both commands. *)
Definition tv_driver : DeviceDriver :=
  DeviceDriver_init tv_info (Ok [power_cmd; volume_cmd]) (1, 2) [[1]; [2]]
    (fun _ => Ok tt) true.

(** The exception [list.count()] raises when called without argument. *)
Definition count_type_error : exn :=
  builtin_exn TypeError_cls "list.count() takes exactly one argument (0 given)".

(** A descriptor that hands out one token per device and accepts every
    finalisation. *)
Definition accept_all_descriptor : DeviceDriverDescriptor (list string) :=
  mk_DeviceDriverDescriptor 7 "Accept all" "Accepts every pairing"
    (fun st => (st, Ok [tv_info]))
    (fun _ => Ok PIN)
    (fun _ => Ok true)
    (fun st di _ => (("tok-" ++ info_device_id di) :: st,
                     Ok ("tok-" ++ info_device_id di, true)))
    (fun st _ _ _ => (st, Ok true))
    (fun st _ => (st, Ok tv_driver)).

(** A descriptor that keeps its pending tokens and consumes a token on
    its first finalisation. *)
Definition single_use_descriptor : DeviceDriverDescriptor (list string) :=
  mk_DeviceDriverDescriptor 8 "Single use" "Consumes pairing tokens"
    (fun st => (st, Ok [tv_info]))
    (fun _ => Ok PIN)
    (fun _ => Ok true)
    (fun st di _ => (("tok-" ++ info_device_id di) :: st,
                     Ok ("tok-" ++ info_device_id di, true)))
    (fun st tok _ _ =>
       if existsb (String.eqb tok) st
       then (filter (fun t => negb (String.eqb t tok)) st, Ok true)
       else (st, Ok false))
    (fun st _ => (st, Ok tv_driver)).

(** The pairing session of the spec's scenario, on descriptor 0. *)
Definition pairing_session : list (hub_op (list string)) :=
  [HStartPairing _ 0 tv_info "LivingRoomRemote";
   HFinalizePairing _ 0 "tok-tv-1" "4821" true;
   HFinalizePairing _ 0 "tok-tv-1" "4821" true].

Definition world_with {S} (d : DeviceDriverDescriptor S) (st : S) : World S :=
  {| _config_path := None; descriptors := [(d, st)] |}.

(** ** Sanity checks on concrete inputs *)

Example py_str_int_examples :
  py_str_int 0 = "0" /\ py_str_int 42 = "42" /\ py_str_int (-7) = "-7".
Proof. vm_compute. auto. Qed.

Example tv_driver_name : driver_name tv_driver = "TV".
Proof. reflexivity. Qed.

Example get_command_tv : get_command tv_driver 1 = Raise count_type_error.
Proof. vm_compute. reflexivity. Qed.

Example single_use_session :
  snd (hub_run (world_with single_use_descriptor []) pairing_session)
  = [Ok (HOutPairing ("tok-tv-1", true)); Ok (HOutBool true); Ok (HOutBool false)].
Proof. vm_compute. reflexivity. Qed.

(** ** Lemmas about strings *)

Lemma str_startswith_app (n t : string) : str_startswith n (n ++ t) = true.
Proof.
  induction n as [|a n IH]; simpl; [reflexivity|].
  rewrite Ascii.eqb_refl, IH. reflexivity.
Qed.

Lemma str_startswith_extend (n h t : string) :
  str_startswith n h = true -> str_startswith n (h ++ t) = true.
Proof.
  revert h. induction n as [|a n IH]; intros h H; [reflexivity|].
  destruct h as [|b h]; simpl in *; [discriminate|].
  apply andb_true_iff in H as [Hab Hn]. rewrite Hab, (IH _ Hn). reflexivity.
Qed.

Lemma str_contains_prepend (n a h : string) :
  str_contains n h = true -> str_contains n (a ++ h) = true.
Proof.
  induction a as [|c a IH]; intros H; simpl; [exact H|].
  rewrite (IH H). apply orb_true_r.
Qed.

Lemma str_contains_extend (n h t : string) :
  str_contains n h = true -> str_contains n (h ++ t) = true.
Proof.
  induction h as [|c h IH]; intros H; simpl in *.
  - destruct n; simpl in *; [destruct t; reflexivity|discriminate].
  - apply orb_true_iff in H as [H|H].
    + pose proof (str_startswith_extend _ _ t H) as H'. simpl in H'.
      rewrite H'. reflexivity.
    + rewrite (IH H). apply orb_true_r.
Qed.

(** [needle in a + needle + b] *)
Lemma str_contains_mid (a n b : string) : str_contains n (a ++ n ++ b) = true.
Proof.
  apply str_contains_prepend.
  destruct n as [|c n]; simpl; [destruct b; reflexivity|].
  rewrite Ascii.eqb_refl, str_startswith_app. reflexivity.
Qed.

Lemma str_app_assoc (a b c : string) : (a ++ b) ++ c = a ++ b ++ c.
Proof. induction a as [|x a IH]; simpl; [reflexivity|]. rewrite IH. reflexivity. Qed.

Lemma str_contains_head (n b : string) : str_contains n (n ++ b) = true.
Proof. exact (str_contains_mid "" n b). Qed.

Create HintDb pystr.
#[local] Hint Resolve str_contains_head str_contains_mid : pystr.

(** Show that a string occurs in an f-string built with [++]. *)
Ltac mentions :=
  repeat first [ apply str_contains_head | apply str_contains_mid
               | apply str_contains_prepend ].

(** ** Lemmas about the class attribute [_config_path] *)

Section ConfigPath.

Variable S : Type.

Lemma update_state_config_path (w : World S) k st :
  _config_path S (update_state S w k st) = _config_path S w.
Proof. reflexivity. Qed.

Lemma call_method_config_path {A} (w : World S) k m (f : A -> hub_out) :
  _config_path S (fst (call_method S w k m f)) = _config_path S w.
Proof.
  unfold call_method. destruct (lookup_descriptor w k) as [[d st]|e]; [|reflexivity].
  destruct (m d st). reflexivity.
Qed.

(** Only [set_config_path] writes the class attribute. *)
Lemma hub_step_config_path (w : World S) op :
  is_set_config_path S op = false ->
  _config_path S (fst (hub_step w op)) = _config_path S w.
Proof.
  destruct op; simpl; intros H; try discriminate; try reflexivity;
    apply call_method_config_path.
Qed.

(** The path stored by the last [set_config_path] of a sequence of calls. *)
Fixpoint last_set (ops : list (hub_op S)) : option string :=
  match ops with
  | [] => None
  | HSetConfigPath _ p :: ops' =>
      match last_set ops' with Some q => Some q | None => Some p end
  | _ :: ops' => last_set ops'
  end.

Lemma hub_run_cons_fst (w : World S) op ops :
  fst (hub_run w (op :: ops)) = fst (hub_run (fst (hub_step w op)) ops).
Proof.
  simpl. destruct (hub_step w op) as [w1 r]. simpl.
  destruct (hub_run w1 ops). reflexivity.
Qed.

(** After a sequence of calls, the class attribute holds the path of the
    last [set_config_path], or its former value if there was none. *)
Lemma hub_run_config_path (w : World S) ops :
  _config_path S (fst (hub_run w ops))
  = match last_set ops with Some p => Some p | None => _config_path S w end.
Proof.
  revert w. induction ops as [|op ops IH]; intros w; [reflexivity|].
  rewrite hub_run_cons_fst, IH.
  destruct op; cbn [last_set]; destruct (last_set ops); try reflexivity;
    apply hub_step_config_path; reflexivity.
Qed.

End ConfigPath.

Arguments last_set {S}.

Lemma no_set_last_set {S} (ops : list (hub_op S)) :
  forallb (fun op => negb (is_set_config_path S op)) ops = true -> last_set ops = None.
Proof.
  induction ops as [|op ops IH]; simpl; intros H; [reflexivity|].
  apply andb_true_iff in H as [H1 H2].
  destruct op; simpl in *; try discriminate; apply IH; exact H2.
Qed.

Lemma driver_run_unchanged (d : DeviceDriver) ops : driver_run d ops = d.
Proof. induction ops as [|op ops IH]; [reflexivity|]. destruct op; exact IH. Qed.

Lemma command_run_unchanged (c : DeviceCommand) ex ops : command_run c ex ops = c.
Proof. induction ops as [|op ops IH]; [reflexivity|]. destruct op; exact IH. Qed.

(** The constructor of [exceptions.py] cannot be given a driver name:
    reading [.name] on a string raises [AttributeError]. *)
Lemma CommandNotFoundException_mod_str (s : string) (i : Z) :
  CommandNotFoundException_mod (PyStr s) i
  = Raise (builtin_exn AttributeError_cls "'str' object has no attribute 'name'").
Proof. reflexivity. Qed.

(** ** The claims *)

(** C1 (code_bug): when [get_commands()] returns a list holding a command
    with id [cmd_id], [get_command(cmd_id)] does not return it: both
    versions of [get_command] call [result.count()] with no argument, which
    raises [TypeError] before the command is selected. *)
Theorem get_command_present_raises_TypeError (d : DeviceDriver)
  (cmds : list DeviceCommand) (c : DeviceCommand) (cmd_id : Z)
  (Hcmds : get_commands d = Ok cmds) (Hin : In c cmds) (Hid : cmd_id_prop c = cmd_id) :
  get_command d cmd_id = Raise count_type_error
  /\ get_command_mod d cmd_id = Raise count_type_error.
Proof.
  unfold get_command, get_command_mod, get_command_with. rewrite Hcmds.
  split; reflexivity.
Qed.

Lemma get_command_present_raises_TypeError_witness :
  get_command tv_driver 1 = Raise count_type_error
  /\ get_command_mod tv_driver 1 = Raise count_type_error.
Proof.
  apply (get_command_present_raises_TypeError tv_driver [power_cmd; volume_cmd]
           power_cmd 1); [reflexivity | simpl; auto | reflexivity].
Defined.

(** C2 (code_bug): when no command has id [cmd_id], [get_command(cmd_id)]
    raises [TypeError] from [result.count()], not [CommandNotFoundException]. *)
Theorem get_command_absent_raises_TypeError (d : DeviceDriver)
  (cmds : list DeviceCommand) (cmd_id : Z)
  (Hcmds : get_commands d = Ok cmds)
  (Habsent : forall c, In c cmds -> cmd_id_prop c <> cmd_id) :
  get_command d cmd_id = Raise count_type_error
  /\ get_command_mod d cmd_id = Raise count_type_error
  /\ exn_class count_type_error <> CommandNotFoundException_cls
  /\ is_DeviceDriverException count_type_error = false.
Proof.
  unfold get_command, get_command_mod, get_command_with. rewrite Hcmds.
  repeat split; try reflexivity; discriminate.
Qed.

Lemma get_command_absent_raises_TypeError_witness :
  get_command tv_driver 7 = Raise count_type_error
  /\ get_command_mod tv_driver 7 = Raise count_type_error
  /\ exn_class count_type_error <> CommandNotFoundException_cls
  /\ is_DeviceDriverException count_type_error = false.
Proof.
  apply (get_command_absent_raises_TypeError tv_driver [power_cmd; volume_cmd] 7);
    [reflexivity|].
  intros c [<-|[<-|[]]]; vm_compute; discriminate.
Defined.

(** C3: [requires_authentication] is computed from [authentication_method]
    alone (there is no attribute behind it), and it is true exactly when
    the method is not [AuthenticationMethod.NONE]; if reading
    [authentication_method] raises, so does [requires_authentication]. *)
Theorem requires_authentication_iff_not_NONE {S} (d : DeviceDriverDescriptor S) (st : S) :
  requires_authentication d st
  = fmap (fun m => negb (AuthenticationMethod_eqb m NONE)) (authentication_method d st)
  /\ match authentication_method d st with
     | Ok m => (requires_authentication d st = Ok true <-> m <> NONE)
               /\ (requires_authentication d st = Ok false <-> m = NONE)
     | Raise e => requires_authentication d st = Raise e
     end.
Proof.
  unfold requires_authentication, fmap.
  destruct (authentication_method d st) as [m|e]; simpl; [|split; reflexivity].
  split; [reflexivity|].
  destruct m; simpl; split; split; intros H;
    solve [ reflexivity | congruence | exfalso; apply H; reflexivity ].
Qed.

(** C4 (corrected): a token is not single-use by contract.  With a driver
    whose [finalize_pairing] accepts every call, the spec's session
    [start_pairing] then twice [finalize_pairing("tok-tv-1", "4821", True)]
    succeeds both times. *)
Lemma pairing_token_reuse_accepted :
  snd (hub_run (world_with accept_all_descriptor []) pairing_session)
  = [Ok (HOutPairing ("tok-tv-1", true)); Ok (HOutBool true); Ok (HOutBool true)].
Proof. vm_compute. reflexivity. Qed.

(** C4, amended: the base class does not make tokens single-use; whether a
    reused token is rejected is up to the driver.  For every device,
    remote name and credentials, a driver accepting every finalisation
    lets the token of [start_pairing] succeed twice, while a driver that
    consumes its tokens accepts it once and rejects its reuse. *)
Theorem pairing_token_reuse_depends_on_driver (di : DeviceInfo)
  (remote_name credentials : string) (device_provides_pin : bool) :
  let tok := "tok-" ++ info_device_id di in
  let session := [HStartPairing (list string) 0 di remote_name;
                  HFinalizePairing _ 0 tok credentials device_provides_pin;
                  HFinalizePairing _ 0 tok credentials device_provides_pin] in
  snd (hub_run (world_with accept_all_descriptor []) session)
  = [Ok (HOutPairing (tok, true)); Ok (HOutBool true); Ok (HOutBool true)]
  /\ snd (hub_run (world_with single_use_descriptor []) session)
     = [Ok (HOutPairing (tok, true)); Ok (HOutBool true); Ok (HOutBool false)].
Proof.
  intros tok session. subst session. split; [reflexivity|].
  cbn. rewrite String.eqb_refl. reflexivity.
Qed.

(** C5: after [set_config_path(p)], every [get_config_path()] (on the class
    or on any descriptor object) returns [p] until the next
    [set_config_path]. *)
Theorem get_config_path_after_set {S} (w : World S) (p : string)
  (ops : list (hub_op S)) (k : nat) (ds : DeviceDriverDescriptor S * S)
  (Hnoset : forallb (fun op => negb (is_set_config_path S op)) ops = true)
  (Hk : lookup_descriptor (fst (hub_run w (HSetConfigPath S p :: ops))) k = Ok ds) :
  snd (hub_step (fst (hub_run w (HSetConfigPath S p :: ops))) (HInstanceGetConfigPath S k))
    = Ok (HOutPath (Some p))
  /\ snd (hub_step (fst (hub_run w (HSetConfigPath S p :: ops))) (HGetConfigPath S))
    = Ok (HOutPath (Some p)).
Proof.
  assert (Hpath : get_config_path (fst (hub_run w (HSetConfigPath S p :: ops))) = Some p).
  { unfold get_config_path. rewrite hub_run_config_path. simpl.
    rewrite (no_set_last_set ops Hnoset). reflexivity. }
  remember (fst (hub_run w (HSetConfigPath S p :: ops))) as w'.
  cbn [hub_step snd]. rewrite Hk, Hpath. split; reflexivity.
Qed.

Lemma get_config_path_after_set_witness :
  snd (hub_step (fst (hub_run (world_with single_use_descriptor [])
                        (HSetConfigPath _ "/etc/pi-control-hub" :: pairing_session)))
         (HInstanceGetConfigPath _ 0))
    = Ok (HOutPath (Some "/etc/pi-control-hub"))
  /\ snd (hub_step (fst (hub_run (world_with single_use_descriptor [])
                        (HSetConfigPath _ "/etc/pi-control-hub" :: pairing_session)))
         (HGetConfigPath _))
    = Ok (HOutPath (Some "/etc/pi-control-hub")).
Proof.
  apply (get_config_path_after_set (world_with single_use_descriptor [])
           "/etc/pi-control-hub" pairing_session 0
           (single_use_descriptor, []));
    vm_compute; reflexivity.
Defined.

(** C6: a driver's [name] and [device_id] are those of the [DeviceInfo] it
    was constructed with, after any sequence of calls on the driver. *)
Theorem driver_identity_from_device_info (info : DeviceInfo)
  gc size layout ex ready (ops : list driver_op) :
  let d := driver_run (DeviceDriver_init info gc size layout ex ready) ops in
  driver_name d = info_name info
  /\ driver_device_id d = info_device_id info
  /\ snd (driver_step d DOpName) = Ok (DOutStr (info_name info))
  /\ snd (driver_step d DOpDeviceId) = Ok (DOutStr (info_device_id info)).
Proof.
  intros d. subst d. rewrite driver_run_unchanged. repeat split.
Qed.

(** C7: the accessors of a [DeviceCommand] return the constructor's
    arguments, after any sequence of calls on the command. *)
Theorem device_command_accessors (cmd_id : Z) (title : string)
  (icon : list Byte.byte) (ex : result unit) (ops : list command_op) :
  let c := command_run (DeviceCommand_init cmd_id title icon) ex ops in
  cmd_id_prop c = cmd_id /\ cmd_title c = title /\ cmd_icon c = icon
  /\ snd (command_step c ex COpId) = Ok (COutInt cmd_id)
  /\ snd (command_step c ex COpTitle) = Ok (COutStr title)
  /\ snd (command_step c ex COpIcon) = Ok (COutBytes icon).
Proof.
  intros c. subst c. rewrite command_run_unchanged. repeat split.
Qed.

(** C8 (corrected): passing a driver name does not always add it to the
    message: [__init__.py] tests the name for truthiness, so passing the
    empty name builds the same message and cause as passing no driver (only
    [args] differs), and that message names no device. *)
Lemma DeviceCommandException_empty_name_omitted :
  exc_obj (DeviceCommandException_pkg_call power_cmd (Positional (Some "")))
  = exc_obj (DeviceCommandException_pkg_call power_cmd NotPassed)
  /\ str_contains "for device"
       (exn_message (exc_obj (DeviceCommandException_pkg_call power_cmd (Positional (Some "")))))
     = false.
Proof. vm_compute. split; reflexivity. Qed.

(** The message of a [DeviceCommandException] for the values its
    parameters take in [__init__]. *)
Lemma DeviceCommandException_messages (command : DeviceCommand)
  (device_driver_name : option string) (device_driver : option DeviceDriver) :
  let base := "Error while executing the command '" ++ cmd_title command ++ "' (id = "
              ++ py_str_int (cmd_id_prop command) ++ ")" in
  let e := DeviceCommandException_pkg command device_driver_name in
  let e' := DeviceCommandException_mod command device_driver in
  exn_class e = DeviceCommandException_cls /\ exn_cause e = None
  /\ exn_message e
     = base ++ (match device_driver_name with
                | Some n => if String.eqb n "" then "." else " for device '" ++ n ++ "'."
                | None => "."
                end)
  /\ str_contains (cmd_title command) (exn_message e) = true
  /\ str_contains (py_str_int (cmd_id_prop command)) (exn_message e) = true
  /\ match device_driver_name with
     | Some n => if String.eqb n "" then e = DeviceCommandException_pkg command None
                 else str_contains n (exn_message e) = true
     | None => True
     end
  /\ exn_class e' = DeviceCommandException_cls /\ exn_cause e' = None
  /\ exn_message e'
     = base ++ (match device_driver with
                | Some d => " for device '" ++ driver_name d ++ "' (id = "
                            ++ driver_device_id d ++ ")."
                | None => "."
                end)
  /\ str_contains (cmd_title command) (exn_message e') = true
  /\ str_contains (py_str_int (cmd_id_prop command)) (exn_message e') = true
  /\ match device_driver with
     | Some d => str_contains (driver_name d) (exn_message e') = true
                 /\ str_contains (driver_device_id d) (exn_message e') = true
     | None => True
     end.
Proof.
  intros base e e'. subst base e e'.
  unfold DeviceCommandException_pkg, DeviceCommandException_mod, py_truthy_str.
  destruct device_driver_name as [n|]; [destruct (String.eqb n "") eqn:En|];
    destruct device_driver as [d|];
    cbn [negb exn_class exn_cause exn_message DeviceDriverException_init];
    rewrite ?str_app_assoc; repeat split; try reflexivity; mentions.
Qed.

(** C8, amended: a [DeviceCommandException] keeps its positional
    constructor arguments in [args]: [args[0]] is the failed command and
    [args[1]] the driver name ([__init__.py]) or driver object
    ([exceptions.py]) when it is passed positionally.  Its cause is [None]
    and its message always contains the command's title and id.  In
    [__init__.py] the clause naming the device is added exactly when the
    name is a non-empty string, and carries no driver id; in
    [exceptions.py] a given driver object adds its name and device id. *)
Theorem DeviceCommandException_args_and_messages (command : DeviceCommand)
  (device_driver_name : py_param (option string))
  (device_driver : py_param (option DeviceDriver)) :
  let e := DeviceCommandException_pkg_call command device_driver_name in
  let e' := DeviceCommandException_mod_call command device_driver in
  let base := "Error while executing the command '" ++ cmd_title command ++ "' (id = "
              ++ py_str_int (cmd_id_prop command) ++ ")" in
  nth_error (exc_args e) 0 = Some (ArgCommand command)
  /\ nth_error (exc_args e) 1
     = match device_driver_name with Positional v => Some (arg_of_opt_str v) | _ => None end
  /\ nth_error (exc_args e') 0 = Some (ArgCommand command)
  /\ nth_error (exc_args e') 1
     = match device_driver with Positional v => Some (arg_of_opt_driver v) | _ => None end
  /\ exn_class (exc_obj e) = DeviceCommandException_cls /\ exn_cause (exc_obj e) = None
  /\ exn_message (exc_obj e)
     = base ++ (match param_value device_driver_name with
                | Some n => if String.eqb n "" then "." else " for device '" ++ n ++ "'."
                | None => "."
                end)
  /\ str_contains (cmd_title command) (exn_message (exc_obj e)) = true
  /\ str_contains (py_str_int (cmd_id_prop command)) (exn_message (exc_obj e)) = true
  /\ match param_value device_driver_name with
     | Some n => if String.eqb n "" then
                   exc_obj e = exc_obj (DeviceCommandException_pkg_call command NotPassed)
                 else str_contains n (exn_message (exc_obj e)) = true
     | None => True
     end
  /\ exn_class (exc_obj e') = DeviceCommandException_cls /\ exn_cause (exc_obj e') = None
  /\ exn_message (exc_obj e')
     = base ++ (match param_value device_driver with
                | Some d => " for device '" ++ driver_name d ++ "' (id = "
                            ++ driver_device_id d ++ ")."
                | None => "."
                end)
  /\ str_contains (cmd_title command) (exn_message (exc_obj e')) = true
  /\ str_contains (py_str_int (cmd_id_prop command)) (exn_message (exc_obj e')) = true
  /\ match param_value device_driver with
     | Some d => str_contains (driver_name d) (exn_message (exc_obj e')) = true
                 /\ str_contains (driver_device_id d) (exn_message (exc_obj e')) = true
     | None => True
     end.
Proof.
  intros e e' base. subst e e' base.
  pose proof (DeviceCommandException_messages command (param_value device_driver_name)
                (param_value device_driver)) as H.
  cbn zeta in H.
  destruct H as (H1 & H2 & H3 & H4 & H5 & H6 & H7 & H8 & H9 & H10 & H11 & H12).
  unfold DeviceCommandException_pkg_call, DeviceCommandException_mod_call.
  cbn [exc_args exc_obj].
  repeat split; try assumption;
    destruct device_driver_name; destruct device_driver; reflexivity.
Qed.

(** C9: before any [set_config_path], [get_config_path()] returns [None];
    after a sequence of calls it returns the path of the last
    [set_config_path], the same for the class and for every descriptor
    object, since the path is one class attribute. *)
Theorem get_config_path_last_write_wins {S} (ops : list (hub_op S)) :
  snd (hub_step initial_world (HGetConfigPath S)) = Ok (HOutPath None)
  /\ snd (hub_step (fst (hub_run initial_world ops)) (HGetConfigPath S))
     = Ok (HOutPath (last_set ops))
  /\ (forall k,
        snd (hub_step (fst (hub_run initial_world ops)) (HInstanceGetConfigPath S k))
        = fmap (fun _ => HOutPath (last_set ops))
            (lookup_descriptor (fst (hub_run initial_world ops)) k)).
Proof.
  assert (Hpath : get_config_path (fst (hub_run (@initial_world S) ops)) = last_set ops).
  { unfold get_config_path. rewrite hub_run_config_path.
    destruct (last_set ops); reflexivity. }
  repeat split; try intros k; cbn [hub_step snd]; rewrite ?Hpath; reflexivity.
Qed.

(** C10: [str()] of a [DeviceDriverException] is its message, whatever
    the cause; the cause is stored in [_cause]. *)
Theorem DeviceDriverException_str_is_message (message : string) (cause : option exn) :
  py_str_exn (DeviceDriverException message cause) = message
  /\ exn_cause (DeviceDriverException message cause) = cause
  /\ (forall cause', py_str_exn (DeviceDriverException message cause')
                     = py_str_exn (DeviceDriverException message cause)).
Proof. repeat split. Qed.

(** ** [installed_drivers] (__init__.py) *)

Section InstalledDrivers.

(** The type of the objects the drivers' factories return. *)
Variable D : Type.

(** Failures of [installed_drivers]: a missing key in an entry map, or an
    exception raised while loading or calling the entry point. *)
Inductive installed_error :=
| KeyError (key : string)
| Raised (e : exn).

(** [pkg_resources.EntryPoint]: [load()] imports the factory (and may
    raise); calling the factory returns an object or raises. *)
Record EntryPoint := mk_EntryPoint {
  ep_load : result (result D)
}.

(** An installed distribution of [pkg_resources.working_set]: its [key]
    and [get_entry_map()], a dict of groups, each a dict of entry points. *)
Record Distribution := mk_Distribution {
  dist_key : string;
  get_entry_map : list (string * list (string * EntryPoint))
}.

(** [d[key]] on a dict with string keys. *)
Fixpoint dict_lookup {V} (d : list (string * V)) (key : string) : option V :=
  match d with
  | [] => None
  | (k, v) :: d' => if String.eqb k key then Some v else dict_lookup d' key
  end.

Definition dict_get {V} (d : list (string * V)) (key : string) : installed_error + V :=
  match dict_lookup d key with
  | Some v => inr v
  | None => inl (KeyError key)
  end.

Definition lift_result {A} (r : result A) : installed_error + A :=
  match r with
  | Ok a => inr a
  | Raise e => inl (Raised e)
  end.

Definition ibind {A B} (m : installed_error + A) (k : A -> installed_error + B)
  : installed_error + B :=
  match m with
  | inl e => inl e
  | inr a => k a
  end.

(** The default [driver_name_prefix]. *)
Definition default_driver_name_prefix : string := "pi-control-hub-driver-".

(** The test of the loop:
    [package.key.startswith(driver_name_prefix) and not package.key == 'pi-control-hub-driver-api']. *)
Definition is_driver_package (driver_name_prefix : string) (package : Distribution) : bool :=
  str_startswith driver_name_prefix (dist_key package)
  && negb (String.eqb (dist_key package) "pi-control-hub-driver-api").

(** The body of the loop for a selected package:
    [entry_map = package.get_entry_map()],
    [entry_point_meta = entry_map["pi_control_hub_driver"]["driver_descriptor"]],
    [entry_point = entry_point_meta.load()], then [entry_point()]. *)
Definition load_package (package : Distribution) : installed_error + D :=
  ibind (dict_get (get_entry_map package) "pi_control_hub_driver") (fun group =>
  ibind (dict_get group "driver_descriptor") (fun entry_point_meta =>
  ibind (lift_result (ep_load entry_point_meta)) (fun entry_point =>
  lift_result entry_point))).

(** The [for] loop over the working set, with the list
    [driver_descriptors] built so far. *)
Fixpoint installed_drivers_loop (working_set : list Distribution)
  (driver_name_prefix : string) (driver_descriptors : list D)
  : installed_error + list D :=
  match working_set with
  | [] => inr driver_descriptors
  | package :: rest =>
      if is_driver_package driver_name_prefix package then
        match load_package package with
        | inl e => inl e
        | inr d => installed_drivers_loop rest driver_name_prefix (driver_descriptors ++ [d])
        end
      else installed_drivers_loop rest driver_name_prefix driver_descriptors
  end.

Definition installed_drivers (working_set : list Distribution) (driver_name_prefix : string)
  : installed_error + list D :=
  installed_drivers_loop working_set driver_name_prefix [].

(** Load each package of a list in order, stopping at the first failure. *)
Fixpoint load_all (packages : list Distribution) : installed_error + list D :=
  match packages with
  | [] => inr []
  | p :: ps => ibind (load_package p) (fun d => ibind (load_all ps) (fun ds => inr (d :: ds)))
  end.

End InstalledDrivers.

Arguments mk_EntryPoint {D} ep_load.
Arguments ep_load {D} _.
Arguments mk_Distribution {D} dist_key get_entry_map.
Arguments dist_key {D} _.
Arguments get_entry_map {D} _.
Arguments is_driver_package {D} driver_name_prefix package.
Arguments load_package {D} package.
Arguments installed_drivers {D} working_set driver_name_prefix.
Arguments installed_drivers_loop {D} working_set driver_name_prefix driver_descriptors.
Arguments load_all {D} packages.

(** Installed distributions used to exercise [installed_drivers]; the
    factories return the descriptor's name. *)
Definition tv_package : Distribution string :=
  mk_Distribution "pi-control-hub-driver-tv"
    [("pi_control_hub_driver", [("driver_descriptor", mk_EntryPoint (Ok (Ok "TV driver")))])].
Definition api_package : Distribution string :=
  mk_Distribution "pi-control-hub-driver-api" [].
Definition requests_package : Distribution string :=
  mk_Distribution "requests" [].
Definition broken_package : Distribution string :=
  mk_Distribution "pi-control-hub-driver-broken" [("console_scripts", [])].

Example installed_drivers_example :
  installed_drivers [requests_package; api_package; tv_package] default_driver_name_prefix
  = inr ["TV driver"].
Proof. reflexivity. Qed.

Section InstalledDriversProofs.

Variable D : Type.

Lemma installed_drivers_loop_acc (ws : list (Distribution D)) prefix acc :
  installed_drivers_loop ws prefix acc
  = ibind (load_all (filter (is_driver_package prefix) ws)) (fun ds => inr (acc ++ ds)%list).
Proof.
  revert acc. induction ws as [|p ws IH]; intros acc; simpl.
  - rewrite app_nil_r. reflexivity.
  - destruct (is_driver_package prefix p); [|apply IH].
    simpl. destruct (load_package p) as [e|d]; simpl; [reflexivity|].
    rewrite IH. destruct (load_all (filter (is_driver_package prefix) ws)); simpl;
      [reflexivity|]. rewrite <- app_assoc. reflexivity.
Qed.

Lemma load_all_ok (ps : list (Distribution D)) ds :
  load_all ps = inr ds <-> Forall2 (fun p d => load_package p = inr d) ps ds.
Proof.
  revert ds. induction ps as [|p ps IH]; intros ds; simpl.
  - split; [intros H; inversion H; constructor|intros H; inversion H; reflexivity].
  - split.
    + destruct (load_package p) as [e|d] eqn:Ep; simpl; [discriminate|].
      destruct (load_all ps) as [e|ds'] eqn:Eps; simpl; [discriminate|].
      intros H. inversion H; subst. constructor; [exact Ep|apply IH; reflexivity].
    + intros H. inversion H as [|p' d ps' ds' Hp Hps]; subst.
      rewrite Hp. simpl. apply IH in Hps. rewrite Hps. reflexivity.
Qed.

End InstalledDriversProofs.

(** X1: [installed_drivers] is the same as keeping the packages whose key
    starts with the prefix and is not ['pi-control-hub-driver-api'], in
    working-set order, and loading each of them, the first failure failing
    the whole call. *)
Theorem installed_drivers_filter_then_load {D} (ws : list (Distribution D)) prefix :
  installed_drivers ws prefix = load_all (filter (is_driver_package prefix) ws).
Proof.
  unfold installed_drivers. rewrite installed_drivers_loop_acc.
  destruct (load_all _); reflexivity.
Qed.

(** X2: [installed_drivers] succeeds with [ds] exactly when every selected
    package loads, [ds] holding their descriptors in working-set order. *)
Theorem installed_drivers_ok_iff {D} (ws : list (Distribution D)) prefix ds :
  installed_drivers ws prefix = inr ds
  <-> Forall2 (fun p d => load_package p = inr d) (filter (is_driver_package prefix) ws) ds.
Proof. rewrite installed_drivers_filter_then_load. apply load_all_ok. Qed.

(** X3: the API's own distribution ['pi-control-hub-driver-api'] is never
    loaded, whatever the prefix and its entry map. *)
Theorem installed_drivers_skips_api_package {D} (ws1 ws2 : list (Distribution D))
  (api : Distribution D) prefix
  (Hkey : dist_key api = "pi-control-hub-driver-api") :
  installed_drivers (ws1 ++ api :: ws2) prefix = installed_drivers (ws1 ++ ws2) prefix.
Proof.
  rewrite !installed_drivers_filter_then_load, !filter_app. simpl.
  unfold is_driver_package at 2. rewrite Hkey, andb_false_r. reflexivity.
Qed.

Lemma installed_drivers_skips_api_package_witness :
  installed_drivers [tv_package; api_package; requests_package] default_driver_name_prefix
  = installed_drivers [tv_package; requests_package] default_driver_name_prefix.
Proof.
  exact (installed_drivers_skips_api_package [tv_package] [requests_package] api_package
           default_driver_name_prefix eq_refl).
Defined.

(** X4: a selected package whose entry map has no ['pi_control_hub_driver']
    group makes [installed_drivers] raise [KeyError('pi_control_hub_driver')]
    when no package before it is selected; no partial list is returned. *)
Theorem installed_drivers_missing_group {D} (ws1 ws2 : list (Distribution D))
  (p : Distribution D) prefix
  (Hbefore : forall q, In q ws1 -> is_driver_package prefix q = false)
  (Hsel : is_driver_package prefix p = true)
  (Hgroup : dict_lookup (get_entry_map p) "pi_control_hub_driver" = None) :
  installed_drivers (ws1 ++ p :: ws2) prefix = inl (KeyError "pi_control_hub_driver").
Proof.
  rewrite installed_drivers_filter_then_load, filter_app.
  replace (filter (is_driver_package prefix) ws1) with (@nil (Distribution D)).
  - simpl. rewrite Hsel. simpl. unfold load_package, dict_get. rewrite Hgroup. reflexivity.
  - symmetry. induction ws1 as [|q ws1 IH]; [reflexivity|]. simpl.
    rewrite (Hbefore q (or_introl eq_refl)).
    apply IH. intros q' Hq'. apply Hbefore. right. exact Hq'.
Qed.

Lemma installed_drivers_missing_group_witness :
  installed_drivers [requests_package; api_package; broken_package; tv_package]
    default_driver_name_prefix
  = inl (KeyError "pi_control_hub_driver").
Proof.
  apply (installed_drivers_missing_group [requests_package; api_package]
           [tv_package] broken_package default_driver_name_prefix).
  - intros q [<-|[<-|[]]]; reflexivity.
  - reflexivity.
  - reflexivity.
Defined.

(** ** Messages of the exception classes *)

Lemma str_app_cancel_l (a x y : string) : a ++ x = a ++ y -> x = y.
Proof.
  induction a as [|c a IH]; simpl; [auto|]. intros H. injection H. exact IH.
Qed.

Lemma list_ascii_of_string_app (a b : string) :
  list_ascii_of_string (a ++ b) = (list_ascii_of_string a ++ list_ascii_of_string b)%list.
Proof. induction a as [|c a IH]; simpl; [reflexivity|]. rewrite IH. reflexivity. Qed.

Lemma str_app_cancel_r (x y s : string) : x ++ s = y ++ s -> x = y.
Proof.
  intros H. apply (f_equal list_ascii_of_string) in H.
  rewrite !list_ascii_of_string_app in H. apply app_inv_tail in H.
  rewrite <- (string_of_list_ascii_of_string x), <- (string_of_list_ascii_of_string y).
  rewrite H. reflexivity.
Qed.

Lemma uint_to_string_inj (d d' : Decimal.uint) :
  uint_to_string d = uint_to_string d' -> d = d'.
Proof.
  revert d'. induction d; intros d'; destruct d'; simpl; intros H;
    try discriminate; try reflexivity;
    injection H; intros H'; f_equal; apply IHd; exact H'.
Qed.

(** [str(i)] determines the integer [i]. *)
Lemma py_str_int_inj (i j : Z) : py_str_int i = py_str_int j -> i = j.
Proof.
  unfold py_str_int. intros H. apply DecimalZ.to_int_inj.
  destruct (Z.to_int i) as [d|d], (Z.to_int j) as [d'|d'].
  - f_equal. apply uint_to_string_inj. exact H.
  - exfalso. destruct d; discriminate H.
  - exfalso. destruct d'; discriminate H.
  - f_equal. apply uint_to_string_inj. simpl in H. injection H. auto.
Qed.

(** X5: [DeviceNotFoundException(device_id)] is a [DeviceDriverException]
    without cause whose [str()] names the device id, and two such
    exceptions have the same message only for the same id. *)
Theorem DeviceNotFoundException_message (device_id : string) :
  is_DeviceDriverException (DeviceNotFoundException_pkg device_id) = true
  /\ exn_cause (DeviceNotFoundException_pkg device_id) = None
  /\ py_str_exn (DeviceNotFoundException_pkg device_id)
     = "Device with ID '" ++ device_id ++ "' not found."
  /\ str_contains device_id (py_str_exn (DeviceNotFoundException_pkg device_id)) = true
  /\ (forall device_id', py_str_exn (DeviceNotFoundException_pkg device_id')
                         = py_str_exn (DeviceNotFoundException_pkg device_id)
                         -> device_id' = device_id).
Proof.
  repeat split; [mentions|]. intros device_id' H.
  cbn [py_str_exn exn_message DeviceNotFoundException_pkg DeviceDriverException_init] in H.
  apply str_app_cancel_l in H. apply str_app_cancel_r in H. exact H.
Qed.

(** X6: the [CommandNotFoundException] of [__init__.py] is a
    [DeviceDriverException] without cause whose message names the driver
    and the command id, and for one driver name the message determines
    the command id. *)
Theorem CommandNotFoundException_pkg_message (device_driver_name : string) (command_id : Z) :
  let e := CommandNotFoundException_pkg device_driver_name command_id in
  is_DeviceDriverException e = true /\ exn_class e = CommandNotFoundException_cls
  /\ exn_cause e = None
  /\ str_contains device_driver_name (py_str_exn e) = true
  /\ str_contains (py_str_int command_id) (py_str_exn e) = true
  /\ (forall command_id', py_str_exn (CommandNotFoundException_pkg device_driver_name command_id')
                          = py_str_exn e -> command_id' = command_id).
Proof.
  intros e. subst e. repeat split; try mentions. intros command_id' H.
  cbn [py_str_exn exn_message CommandNotFoundException_pkg DeviceDriverException_init] in H.
  do 3 apply str_app_cancel_l in H. apply str_app_cancel_r in H.
  apply py_str_int_inj. exact H.
Qed.

(** X7: the [CommandNotFoundException] of [exceptions.py], given a driver
    object, is a [DeviceDriverException] without cause whose message names
    the driver, its device id and the command id; given a string (as
    [device_driver.py] does) its construction raises [AttributeError]. *)
Theorem CommandNotFoundException_mod_message (d : DeviceDriver) (s : string) (command_id : Z) :
  exists e,
    CommandNotFoundException_mod (PyDriver d) command_id = Ok e
    /\ is_DeviceDriverException e = true /\ exn_cause e = None
    /\ str_contains (driver_name d) (py_str_exn e) = true
    /\ str_contains (driver_device_id d) (py_str_exn e) = true
    /\ str_contains (py_str_int command_id) (py_str_exn e) = true
    /\ exists msg, CommandNotFoundException_mod (PyStr s) command_id
                   = Raise (builtin_exn AttributeError_cls msg).
Proof.
  eexists. split; [reflexivity|]. repeat split; try mentions.
  eexists. reflexivity.
Qed.
